(** * Dataset sample fields

    A shallow embedding of [fiftyone/core/fields.py]: the field classes that
    convert a sample value to its stored form ([to_mongo]), back
    ([to_python]), and check it ([validate]).

    Python values are a tagged union and exceptions are the [Raise] result
    of an error monad.  The collaborators the module calls without defining
    them are interfaces (type classes): the array codec of
    [fiftyone.core.utils], the [ImageLabels] class of [eta.core.image], the
    parser behind [float(str)], and [numpy] outside the numeric fragment
    modelled here. *)

From Stdlib Require Import ZArith List String Bool Lia.
From Stdlib Require Import Strings.Byte.
From Stdlib Require Import Floats.PrimFloat Floats.SpecFloat Floats.FloatOps.
Import ListNotations.

Set Warnings "-register-all".

Local Open Scope string_scope.
Local Open Scope Z_scope.

(** ** Python scalars *)

(** The immutable scalar objects a sample value is built from.  A Python
    [float] is an IEEE binary64, an [int] is unbounded. *)
Inductive scalar :=
| SNone
| SBool (b : bool)
| SInt (z : Z)
| SFloat (f : float)
| SStr (s : string).

(** The numbers among them. *)
Inductive num :=
| NBool (b : bool)
| NInt (z : Z)
| NFloat (f : float).

(** The real number a number stands for: [XFin m e] is [m * 2^e]. *)
Inductive xreal :=
| XNaN
| XInf (negative : bool)
| XFin (m e : Z).

Definition xreal_of_float (f : float) : xreal :=
  match Prim2SF f with
  | S754_nan => XNaN
  | S754_infinity s => XInf s
  | S754_zero _ => XFin 0 0
  | S754_finite s m e => XFin (if s then Z.neg m else Z.pos m) e
  end.

(** [bool] is a subclass of [int]: [True] is 1 and [False] is 0. *)
Definition xreal_of_num (n : num) : xreal :=
  match n with
  | NBool b => XFin (Z.b2z b) 0
  | NInt z => XFin z 0
  | NFloat f => xreal_of_float f
  end.

Definition xreal_of_scalar (x : scalar) : option xreal :=
  match x with
  | SBool b => Some (xreal_of_num (NBool b))
  | SInt z => Some (xreal_of_num (NInt z))
  | SFloat f => Some (xreal_of_num (NFloat f))
  | SNone | SStr _ => None
  end.

(** Python compares numbers by their exact value, also an [int] with a
    [float]; a NaN is unordered. *)
Definition xcompare (a b : xreal) : option comparison :=
  match a, b with
  | XNaN, _ | _, XNaN => None
  | XInf s1, XInf s2 =>
      Some (if s1 then (if s2 then Eq else Lt) else (if s2 then Gt else Eq))
  | XInf s, XFin _ _ => Some (if s then Lt else Gt)
  | XFin _ _, XInf s => Some (if s then Gt else Lt)
  | XFin m1 e1, XFin m2 e2 =>
      let e := Z.min e1 e2 in
      Some (Z.compare (m1 * 2 ^ (e1 - e)) (m2 * 2 ^ (e2 - e)))
  end.

Definition xlt (a b : xreal) : bool :=
  match xcompare a b with Some Lt => true | _ => false end.

Definition xgt (a b : xreal) : bool :=
  match xcompare a b with Some Gt => true | _ => false end.

Definition xle (a b : xreal) : bool :=
  match xcompare a b with Some Lt | Some Eq => true | _ => false end.

Definition xeq (a b : xreal) : bool :=
  match xcompare a b with Some Eq => true | _ => false end.

(** [x == y] on scalars. *)
Definition py_eq (x y : scalar) : bool :=
  match x, y with
  | SNone, SNone => true
  | SStr s, SStr t => String.eqb s t
  | _, _ =>
      match xreal_of_scalar x, xreal_of_scalar y with
      | Some a, Some b => xeq a b
      | _, _ => false
      end
  end.

(** Two sequences hold equal values, place by place: [ys[i] == xs[i]]. *)
Definition items_equal (ys xs : list scalar) : Prop :=
  Forall2 (fun y x => py_eq y x = true) ys xs.

(** The nearest binary64 to an integer, ties to even; an infinity when the
    integer is beyond the largest finite one. *)
Definition float_of_Z (z : Z) : float :=
  SF2Prim (binary_normalize prec emax z 0 false).

Definition float_of_bool (b : bool) : float :=
  if b then 1%float else 0%float.

Definition is_finite (f : float) : bool :=
  match Prim2SF f with
  | S754_zero _ | S754_finite _ _ _ => true
  | S754_infinity _ | S754_nan => false
  end.

(** ** numpy arrays *)

(** The element buffer of an array, tagged with its dtype.  An object array
    holds references to Python objects; here, to scalars. *)
Inductive buffer :=
| BoolBuf (l : list bool)
| Int64Buf (l : list Z)
| Float64Buf (l : list float)
| ObjectBuf (l : list scalar).

Record ndarray := mk_ndarray { shape : list nat; data : buffer }.

Definition ndim (a : ndarray) : nat := List.length (shape a).

(** An array of numbers, as opposed to one of object references. *)
Definition numeric (a : ndarray) : bool :=
  match data a with ObjectBuf _ => false | _ => true end.

(** The elements in storage order, as Python scalars ([a.flat] items). *)
Definition buffer_items (b : buffer) : list scalar :=
  match b with
  | BoolBuf l => map SBool l
  | Int64Buf l => map SInt l
  | Float64Buf l => map SFloat l
  | ObjectBuf l => l
  end.

Definition array_items (a : ndarray) : list scalar := buffer_items (data a).

Definition in_int64 (z : Z) : bool := (- 2 ^ 63 <=? z) && (z <? 2 ^ 63).

Definition num_of_scalar (x : scalar) : option num :=
  match x with
  | SBool b => Some (NBool b)
  | SInt z => if in_int64 z then Some (NInt z) else None
  | SFloat f => Some (NFloat f)
  | SNone | SStr _ => None
  end.

(** The numbers numpy stores natively are [bool], [float] and the [int]s
    within 64 bits. *)
Definition wf_num (n : num) : bool :=
  match n with NInt z => in_int64 z | _ => true end.

Definition scalar_of_num (n : num) : scalar :=
  match n with
  | NBool b => SBool b
  | NInt z => SInt z
  | NFloat f => SFloat f
  end.

Fixpoint nums_of_scalars (l : list scalar) : option (list num) :=
  match l with
  | [] => Some []
  | x :: l' =>
      match num_of_scalar x, nums_of_scalars l' with
      | Some n, Some ns => Some (n :: ns)
      | _, _ => None
      end
  end.

(** Casts to a common dtype: [Some] when every element fits it. *)
Fixpoint as_bools (l : list num) : option (list bool) :=
  match l with
  | [] => Some []
  | NBool b :: l' => option_map (cons b) (as_bools l')
  | _ :: _ => None
  end.

Fixpoint as_ints (l : list num) : option (list Z) :=
  match l with
  | [] => Some []
  | NBool b :: l' => option_map (cons (Z.b2z b)) (as_ints l')
  | NInt z :: l' => option_map (cons z) (as_ints l')
  | NFloat _ :: _ => None
  end.

Definition float_of_num (n : num) : float :=
  match n with
  | NBool b => float_of_bool b
  | NInt z => float_of_Z z
  | NFloat f => f
  end.

(** The buffer [np.asarray] builds from a sequence of numbers: the smallest
    of bool, int64 and float64 that holds every element; float64 when
    there is none. *)
Definition pack (l : list num) : buffer :=
  match l with
  | [] => Float64Buf []
  | _ :: _ =>
      match as_bools l with
      | Some bs => BoolBuf bs
      | None =>
          match as_ints l with
          | Some zs => Int64Buf zs
          | None => Float64Buf (map float_of_num l)
          end
      end
  end.

(** [chunks k n xs]: the first [n] consecutive blocks of [k] elements. *)
Fixpoint chunks {A} (k n : nat) (xs : list A) : list (list A) :=
  match n with
  | O => []
  | S n' => firstn k xs :: chunks k n' (skipn k xs)
  end.

Definition product (l : list nat) : nat := fold_right Nat.mul 1%nat l.

(** ** Field descriptors *)

(** The field classes of the module, with the configuration the methods
    below read. *)
Inductive field :=
| BooleanField
| IntField
| FloatField (min_value max_value : option num)
| StringField
| ListField (elem : option field)
| DictField (elem : option field)
| VectorField
| ArrayField
| ImageLabelsField
| EmbeddedDocumentField (document_type : string).

Section Fields.

(** Instances of [eta.core.image.ImageLabels]. *)
Context {labels : Type}.

(** ** Python values *)

Inductive pyval :=
| VNone
| VBool (b : bool)
| VInt (z : Z)
| VFloat (f : float)
| VStr (s : string)
| VBytes (bs : list byte)
| VBinary (bs : list byte)          (* bson.binary.Binary *)
| VList (l : list pyval)
| VTuple (l : list pyval)
| VDict (items : list (pyval * pyval))
| VArray (a : ndarray)              (* numpy.ndarray *)
| VImageLabels (o : labels).

Definition value_of_scalar (x : scalar) : pyval :=
  match x with
  | SNone => VNone
  | SBool b => VBool b
  | SInt z => VInt z
  | SFloat f => VFloat f
  | SStr s => VStr s
  end.

Definition scalar_of_value (v : pyval) : option scalar :=
  match v with
  | VNone => Some SNone
  | VBool b => Some (SBool b)
  | VInt z => Some (SInt z)
  | VFloat f => Some (SFloat f)
  | VStr s => Some (SStr s)
  | _ => None
  end.

Fixpoint scalars_of_values (l : list pyval) : option (list scalar) :=
  match l with
  | [] => Some []
  | v :: l' =>
      match scalar_of_value v, scalars_of_values l' with
      | Some x, Some xs => Some (x :: xs)
      | _, _ => None
      end
  end.

(** Any object a constructor or a message may be handed. *)
Inductive pyobj :=
| PValue (v : pyval)
| PField (f : field)                (* an instance of [Field] *)
| PType (name : string)             (* a class *)
| PForeign (class : string).        (* an instance of any other class *)

Definition type_name (v : pyval) : string :=
  match v with
  | VNone => "NoneType"
  | VBool _ => "bool"
  | VInt _ => "int"
  | VFloat _ => "float"
  | VStr _ => "str"
  | VBytes _ => "bytes"
  | VBinary _ => "bson.binary.Binary"
  | VList _ => "list"
  | VTuple _ => "tuple"
  | VDict _ => "dict"
  | VArray _ => "numpy.ndarray"
  | VImageLabels _ => "eta.core.image.ImageLabels"
  end.

(** ** Exceptions *)

(** A message is a literal or a [%]-template with its arguments. *)
Inductive message :=
| Literal (s : string)
| Format (template : string) (args : list pyobj).

Inductive exn :=
| ValidationError (m : message)     (* raised by [self.error] *)
| ValueError (m : message)
| TypeError
| OverflowError
| AttributeError (name : string).

Inductive result (A : Type) :=
| Ok (a : A)
| Raise (e : exn).

Arguments Ok {A} a.
Arguments Raise {A} e.

Definition bind {A B} (r : result A) (k : A -> result B) : result B :=
  match r with
  | Ok a => k a
  | Raise e => Raise e
  end.

Notation "x <- r ;; k" := (bind r (fun x => k))
  (at level 61, r at next level, right associativity).

(** [self.error(msg)] of the base field class raises a validation error. *)
Definition error {A} (m : message) : result A := Raise (ValidationError m).

(** [template % v] with one [%s]: a tuple on the right is the argument
    list, so it must have exactly one element. *)
Definition py_format (template : string) (v : pyval) : result message :=
  match v with
  | VTuple [x] => Ok (Format template [PValue x])
  | VTuple _ => Raise TypeError
  | _ => Ok (Format template [PValue v])
  end.

(** ** numpy operations *)

(** What [np.asarray] makes of an input outside the fragment modelled here:
    a sequence with an element that is not a bool, an int64 or a float, a
    nested sequence, a mapping, a string, a foreign object. *)
Class Numpy := { np_asarray_foreign : pyval -> result ndarray }.

Context {numpy : Numpy}.

Definition num_of_value (v : pyval) : option num :=
  match scalar_of_value v with
  | Some x => num_of_scalar x
  | None => None
  end.

Fixpoint nums_of_values (l : list pyval) : option (list num) :=
  match l with
  | [] => Some []
  | v :: l' =>
      match num_of_value v, nums_of_values l' with
      | Some n, Some ns => Some (n :: ns)
      | _, _ => None
      end
  end.

(** [np.asarray(v)]: an array is returned as it is, a number becomes a
    0-d array, a flat sequence of numbers a 1-D array of their common
    dtype. *)
Definition np_asarray (v : pyval) : result ndarray :=
  match v with
  | VArray a => Ok a
  | VList l | VTuple l =>
      match nums_of_values l with
      | Some ns => Ok (mk_ndarray [List.length ns] (pack ns))
      | None => np_asarray_foreign v
      end
  | _ =>
      match num_of_value v with
      | Some n => Ok (mk_ndarray [] (pack [n]))
      | None => np_asarray_foreign v
      end
  end.

(** [nest shape xs]: the items [xs] as lists nested along [shape]; the item
    itself at rank 0. *)
Fixpoint nest (shape : list nat) (xs : list pyval) : pyval :=
  match shape with
  | [] => hd VNone xs
  | n :: shape' => VList (map (nest shape') (chunks (product shape') n xs))
  end.

(** [a.tolist()] *)
Definition np_tolist (a : ndarray) : pyval :=
  nest (shape a) (map value_of_scalar (array_items a)).

(** ** Scalar fields *)

(** The parser behind [float(str)] and [float(bytes)]. *)
Class FloatParser := { float_of_string : string -> option float }.

Context {parser : FloatParser}.

Definition parse_float (v : pyval) (s : string) : result float :=
  match float_of_string s with
  | Some f => Ok f
  | None =>
      Raise (ValueError (Format "could not convert string to float: %r" [PValue v]))
  end.

(** [float(v)]: raises [OverflowError] for an int beyond the floats,
    [ValueError] for text that is not a number and [TypeError] for a value
    that is neither a number nor text. *)
Definition py_float (v : pyval) : result float :=
  match v with
  | VFloat f => Ok f
  | VBool b => Ok (float_of_bool b)
  | VInt z =>
      let f := float_of_Z z in
      if is_finite f then Ok f else Raise OverflowError
  | VStr s => parse_float v s
  | VBytes bs | VBinary bs => parse_float v (string_of_list_byte bs)
  | VArray a =>
      match array_items a with
      | [SFloat f] => Ok f
      | [SBool b] => Ok (float_of_bool b)
      | [SInt z] =>
          let f := float_of_Z z in
          if is_finite f then Ok f else Raise OverflowError
      | [SStr s] => parse_float (VStr s) s
      | _ => Raise TypeError
      end
  | VNone | VList _ | VTuple _ | VDict _ | VImageLabels _ => Raise TypeError
  end.

(** [f < n] and [f > n] for a float [f] and a number [n]. *)
Definition float_lt (f : float) (n : num) : bool :=
  xlt (xreal_of_float f) (xreal_of_num n).

Definition float_gt (f : float) (n : num) : bool :=
  xgt (xreal_of_float f) (xreal_of_num n).

(** [FloatField.validate]; a bound is a number, or [None] when not set. *)
Definition FloatField_validate (min_value max_value : option num)
  (value : pyval) : result unit :=
  value' <- match py_float value with
            | Ok f => Ok f
            | Raise OverflowError =>
                error (Literal "The value is too large to be converted to float")
            | Raise TypeError | Raise (ValueError _) =>
                m <- py_format "%s could not be converted to float" value ;;
                error m
            | Raise e => Raise e
            end ;;
  _ <- match min_value with
       | Some bound =>
           if float_lt value' bound
           then error (Literal "Float value is too small")
           else Ok tt
       | None => Ok tt
       end ;;
  match max_value with
  | Some bound =>
      if float_gt value' bound
      then error (Literal "Float value is too large")
      else Ok tt
  | None => Ok tt
  end.

(** ** Container fields *)

Definition class_name (f : field) : string :=
  match f with
  | BooleanField => "BooleanField"
  | IntField => "IntField"
  | FloatField _ _ => "FloatField"
  | StringField => "StringField"
  | ListField _ => "ListField"
  | DictField _ => "DictField"
  | VectorField => "VectorField"
  | ArrayField => "ArrayField"
  | ImageLabelsField => "ImageLabelsField"
  | EmbeddedDocumentField _ => "EmbeddedDocumentField"
  end.

(** [type(o)] *)
Definition py_type (o : pyobj) : pyobj :=
  match o with
  | PValue v => PType (type_name v)
  | PField f => PType (class_name f)
  | PType _ => PType "type"
  | PForeign c => PType c
  end.

Definition obj_is_None (o : pyobj) : bool :=
  match o with PValue VNone => true | _ => false end.

(** [isinstance(o, Field)], with the instance when it is one. *)
Definition as_Field (o : pyobj) : option field :=
  match o with PField f => Some f | _ => None end.

Definition invalid_field_type (o : pyobj) : message :=
  Format "Invalid field type '%s'; must be a subclass of %s"
    [py_type o; PType "Field"].

(** [ListField.__init__(field)], without further keyword arguments; the
    base class stores [field]. *)
Definition ListField_init (arg : pyobj) : result field :=
  if obj_is_None arg then Ok (ListField None)
  else
    match as_Field arg with
    | None => Raise (ValueError (invalid_field_type arg))
    | Some f => Ok (ListField (Some f))
    end.

(** [DictField.__init__(field)] *)
Definition DictField_init (arg : pyobj) : result field :=
  if obj_is_None arg then Ok (DictField None)
  else
    match as_Field arg with
    | None => Raise (ValueError (invalid_field_type arg))
    | Some f => Ok (DictField (Some f))
    end.

(** ** VectorField *)

Definition VectorField_to_mongo (value : pyval) : result pyval :=
  match value with
  | VNone => Ok VNone
  | _ => a <- np_asarray value ;; Ok (np_tolist a)
  end.

Definition VectorField_to_python (value : pyval) : result pyval :=
  match value with
  | VNone | VArray _ => Ok value
  | _ => a <- np_asarray value ;; Ok (VArray a)
  end.

Definition VectorField_validate (value : pyval) : result unit :=
  match value with
  | VArray a =>
      if (1 <? ndim a)%nat
      then error (Literal "Only 1D arrays may be used in a vector field")
      else Ok tt
  | VList _ | VTuple _ => Ok tt
  | _ =>
      error (Literal
        "Only numpy arrays, lists, and tuples may be used in a vector field")
  end.

(** ** ArrayField *)

(** The array codec of [fiftyone.core.utils]. *)
Class ArrayCodec := {
  serialize_numpy_array : pyval -> result (list byte);
  deserialize_numpy_array : pyval -> result ndarray
}.

Context {codec : ArrayCodec}.

(** [BinaryField.to_mongo] of the base class wraps the bytes in a
    [Binary]. *)
Definition BinaryField_to_mongo (bs : list byte) : pyval := VBinary bs.

Definition ArrayField_to_mongo (value : pyval) : result pyval :=
  match value with
  | VNone => Ok VNone
  | _ =>
      bytes <- serialize_numpy_array value ;;
      Ok (BinaryField_to_mongo bytes)
  end.

Definition ArrayField_to_python (value : pyval) : result pyval :=
  match value with
  | VNone | VArray _ => Ok value
  | _ => a <- deserialize_numpy_array value ;; Ok (VArray a)
  end.

Definition ArrayField_validate (value : pyval) : result unit :=
  match value with
  | VArray _ | VBinary _ => Ok tt
  | _ => error (Literal "Only numpy arrays may be used in an array field")
  end.

(** ** ImageLabelsField *)

(** The two methods of [eta.core.image.ImageLabels] the field calls. *)
Class ImageLabelsClass := {
  ImageLabels_serialize : labels -> list (pyval * pyval);
  ImageLabels_from_dict : pyval -> result labels
}.

Context {eta : ImageLabelsClass}.

(** [v.serialize()]: only an [ImageLabels] has the method. *)
Definition py_serialize (v : pyval) : result pyval :=
  match v with
  | VImageLabels o => Ok (VDict (ImageLabels_serialize o))
  | _ => Raise (AttributeError "serialize")
  end.

Definition ImageLabelsField_to_mongo (value : pyval) : result pyval :=
  match value with
  | VNone => Ok VNone
  | _ => py_serialize value
  end.

Definition ImageLabelsField_to_python (value : pyval) : result pyval :=
  match value with
  | VNone | VImageLabels _ => Ok value
  | _ => o <- ImageLabels_from_dict value ;; Ok (VImageLabels o)
  end.

Definition ImageLabelsField_validate (value : pyval) : result unit :=
  match value with
  | VDict _ | VImageLabels _ => Ok tt
  | _ =>
      error (Literal
        "Only dicts and `eta.core.image.ImageLabels` instances may be used in an ImageLabels field")
  end.

End Fields.

Arguments pyval : clear implicits.
Arguments pyobj : clear implicits.
Arguments message : clear implicits.
Arguments exn : clear implicits.
Arguments result : clear implicits.
Arguments Ok {labels A} a.
Arguments Raise {labels A} e.
Arguments Numpy : clear implicits.
Arguments ArrayCodec : clear implicits.
Arguments ImageLabelsClass : clear implicits.

(** ** What the statements speak of *)

Section Vocabulary.

Context {labels : Type} {numpy : Numpy labels} {parser : FloatParser}.

(** A validation is rejected when it raises a validation error. *)
Definition rejected (r : result labels unit) (text : string) : Prop :=
  r = Raise (ValidationError (Literal text)).

(** The position of a float with respect to a bound; nothing is below or
    above a bound that is not set. *)
Definition below (f : float) (bound : option num) : bool :=
  match bound with
  | Some n => xlt (xreal_of_float f) (xreal_of_num n)
  | None => false
  end.

Definition above (f : float) (bound : option num) : bool :=
  match bound with
  | Some n => xgt (xreal_of_float f) (xreal_of_num n)
  | None => false
  end.

(** [min_value <= f <= max_value], each bound counting only when set. *)
Definition within_bounds (min_value max_value : option num) (f : float)
  : bool :=
  match min_value with
  | Some n => xle (xreal_of_num n) (xreal_of_float f)
  | None => true
  end
  && match max_value with
     | Some n => xle (xreal_of_float f) (xreal_of_num n)
     | None => true
     end.

(** The elements of a one-dimensional input: a flat list or tuple of
    scalars, or an array of shape [(n,)]. *)
Definition vector_items (v : pyval labels) : option (list scalar) :=
  match v with
  | VList l | VTuple l => scalars_of_values l
  | VArray a =>
      match shape a with
      | [n] => if (n =? List.length (array_items a))%nat
               then Some (array_items a) else None
      | _ => None
      end
  | _ => None
  end.

(** Write, then read. *)
Definition vector_round_trip (v : pyval labels) : result labels (pyval labels) :=
  bind (VectorField_to_mongo v) VectorField_to_python.

(** The round trip of [v] gives a 1-D array whose elements are equal
    ([==]) to the values [xs], in their order. *)
Definition round_trip_equal (v : pyval labels) (xs : list scalar) : Prop :=
  exists a,
    vector_round_trip v = Ok (VArray a)
    /\ shape a = [List.length xs]
    /\ items_equal (array_items a) xs.


Definition is_float (n : num) : bool :=
  match n with NFloat _ => true | _ => false end.

(** A number survives the cast to float64 when the float it becomes
    compares equal to it; a NaN does not, being equal to nothing. *)
Definition exact_as_float (n : num) : bool :=
  py_eq (SFloat (float_of_num n)) (scalar_of_num n).

(** No element is changed by the common dtype: either no float forces
    float64, or every element is exact as a float. *)
Definition coercion_exact (ns : list num) : bool :=
  negb (existsb is_float ns) || forallb exact_as_float ns.

(** The position of a number given as input, before [float] converts
    it, with respect to the bounds. *)
Definition input_within (min_value max_value : option num) (n : num) : bool :=
  match min_value with
  | Some lo => xle (xreal_of_num lo) (xreal_of_num n)
  | None => true
  end
  && match max_value with
     | Some hi => xle (xreal_of_num n) (xreal_of_num hi)
     | None => true
     end.

Definition input_above (n : num) (bound : option num) : bool :=
  match bound with
  | Some hi => xgt (xreal_of_num n) (xreal_of_num hi)
  | None => false
  end.

End Vocabulary.

(** ** Further vocabulary *)

Section MoreVocabulary.

Context {labels : Type}.

(** The float is a NaN. *)
Definition not_a_number (f : float) : bool :=
  match xreal_of_float f with XNaN => true | _ => false end.

(** The message [FloatField.validate] reports when [float(value)] raised
    [e]. *)
Definition conversion_error (value : pyval labels) (e : exn labels)
  : message labels :=
  match e with
  | OverflowError => Literal "The value is too large to be converted to float"
  | _ => Format "%s could not be converted to float" [PValue value]
  end.

Definition is_VBool (v : pyval labels) : bool :=
  match v with VBool _ => true | _ => false end.

Definition is_VInt (v : pyval labels) : bool :=
  match v with VInt _ => true | _ => false end.

Definition is_VFloat (v : pyval labels) : bool :=
  match v with VFloat _ => true | _ => false end.

(** All elements are bools, or all ints, or all floats. *)
Definition homogeneous (l : list (pyval labels)) : bool :=
  forallb is_VBool l || forallb is_VInt l || forallb is_VFloat l.

(** A non-empty 1-D array of dtype bool, int64 or float64 whose shape
    counts its items and whose ints are within 64 bits. *)
Definition native_vector (a : ndarray) : bool :=
  match shape a, data a with
  | [n], BoolBuf (b :: l) => (n =? S (List.length l))%nat
  | [n], Int64Buf (z :: l) =>
      (n =? S (List.length l))%nat && forallb in_int64 (z :: l)
  | [n], Float64Buf (f :: l) => (n =? S (List.length l))%nat
  | _, _ => false
  end.

End MoreVocabulary.

(** ** A concrete setting to run the model in *)

(** An annotation known by its file name only. *)
Definition toy_labels : Type := string.

(** A numpy that refuses what lies outside the modelled fragment. *)
#[export] Instance toy_numpy : Numpy toy_labels :=
  {| np_asarray_foreign := fun _ => Raise TypeError |}.

(** A parser that reads the names of the special floats; Python's reads
    decimal literals too. *)
#[export] Instance toy_parser : FloatParser :=
  {| float_of_string := fun s =>
       if String.eqb s "inf" then Some infinity
       else if String.eqb s "-inf" then Some neg_infinity
       else if String.eqb s "nan" then Some nan
       else None |}.

Definition byte_of_bool (b : bool) : byte := if b then x01 else x00.

Definition bool_of_byte (c : byte) : bool :=
  match c with x00 => false | _ => true end.

(** A codec for 1-D bool arrays, one byte per element. *)
#[export] Instance toy_codec : ArrayCodec toy_labels :=
  {| serialize_numpy_array := fun v =>
       match v with
       | VArray (mk_ndarray [n] (BoolBuf l)) => Ok (map byte_of_bool l)
       | _ => Raise TypeError
       end;
     deserialize_numpy_array := fun v =>
       match v with
       | VBytes bs | VBinary bs =>
           Ok (mk_ndarray [List.length bs] (BoolBuf (map bool_of_byte bs)))
       | _ => Raise TypeError
       end |}.

#[export] Instance toy_eta : ImageLabelsClass toy_labels :=
  {| ImageLabels_serialize := fun name => [(VStr "filename", VStr name)];
     ImageLabels_from_dict := fun v =>
       match v with
       | VDict [(VStr "filename", VStr name)] => Ok name
       | _ => Raise TypeError
       end |}.

(** * Lemmas on the comparison of numbers *)

Lemma xcompare_antisym a b c :
  xcompare a b = Some c -> xcompare b a = Some (CompOpp c).
Proof.
  destruct a as [|s1|m1 e1], b as [|s2|m2 e2]; simpl; try discriminate.
  - destruct s1, s2; intros [= <-]; reflexivity.
  - destruct s1; intros [= <-]; reflexivity.
  - destruct s2; intros [= <-]; reflexivity.
  - intros [= <-]. rewrite (Z.min_comm e2 e1).
    now rewrite <- Z.compare_antisym.
Qed.

Lemma xle_not_xgt a b : xle a b = true -> xgt a b = false.
Proof.
  unfold xle, xgt. now destruct (xcompare a b) as [[]|].
Qed.

Lemma xle_not_xlt_flip a b : xle a b = true -> xlt b a = false.
Proof.
  unfold xle, xlt. destruct (xcompare a b) as [c|] eqn:E; [|discriminate].
  rewrite (xcompare_antisym _ _ _ E). now destruct c.
Qed.

Lemma scaled_compare m1 m2 e1 e2 e :
  e <= Z.min e1 e2 ->
  (m1 * 2 ^ (e1 - e) ?= m2 * 2 ^ (e2 - e))
  = (m1 * 2 ^ (e1 - Z.min e1 e2) ?= m2 * 2 ^ (e2 - Z.min e1 e2)).
Proof.
  intros He. set (mn := Z.min e1 e2) in *.
  assert (H1 : mn <= e1) by apply Z.le_min_l.
  assert (H2 : mn <= e2) by apply Z.le_min_r.
  replace (e1 - e) with ((e1 - mn) + (mn - e)) by lia.
  replace (e2 - e) with ((e2 - mn) + (mn - e)) by lia.
  rewrite (Z.pow_add_r 2 (e1 - mn) (mn - e)) by lia.
  rewrite (Z.pow_add_r 2 (e2 - mn) (mn - e)) by lia.
  rewrite !Z.mul_assoc. symmetry.
  apply Zmult_compare_compat_r.
  apply Z.lt_gt, Z.pow_pos_nonneg; lia.
Qed.

Lemma xle_fin m1 e1 m2 e2 e :
  e <= Z.min e1 e2 ->
  xle (XFin m1 e1) (XFin m2 e2) = true
  <-> m1 * 2 ^ (e1 - e) <= m2 * 2 ^ (e2 - e).
Proof.
  intros He. unfold xle, xcompare. cbv zeta.
  rewrite <- (scaled_compare m1 m2 e1 e2 e He). unfold Z.le.
  destruct (_ ?= _); simpl; intuition congruence.
Qed.

(** [<=] on numbers is transitive. *)
Lemma xle_trans a b c : xle a b = true -> xle b c = true -> xle a c = true.
Proof.
  destruct a as [|s1|m1 e1], b as [|s2|m2 e2], c as [|s3|m3 e3];
    try discriminate;
    try (destruct s1); try (destruct s2); try (destruct s3);
    try discriminate; try reflexivity.
  set (e := Z.min e1 (Z.min e2 e3)).
  intros H12 H23.
  apply (xle_fin _ _ _ _ e) in H12; [|unfold e; lia].
  apply (xle_fin _ _ _ _ e) in H23; [|unfold e; lia].
  apply (xle_fin _ _ _ _ e); [unfold e; lia|]. lia.
Qed.

(** Two numbers that are not NaN are ordered. *)
Lemma not_xlt_xle a b :
  a <> XNaN -> b <> XNaN -> xlt a b = false -> xle b a = true.
Proof.
  intros Ha Hb. unfold xlt, xle.
  destruct (xcompare a b) as [c|] eqn:E.
  - rewrite (xcompare_antisym _ _ _ E). now destruct c.
  - destruct a, b; try discriminate; now (elim Ha || elim Hb).
Qed.

Lemma not_xgt_xle a b :
  a <> XNaN -> b <> XNaN -> xgt a b = false -> xle a b = true.
Proof.
  intros Ha Hb. unfold xgt, xle.
  destruct (xcompare a b) as [c|] eqn:E.
  - now destruct c.
  - destruct a, b; try discriminate; now (elim Ha || elim Hb).
Qed.

Lemma xgt_not_nan a b : xgt a b = true -> a <> XNaN /\ b <> XNaN.
Proof.
  unfold xgt. destruct a, b; simpl; try discriminate; now split.
Qed.

(** [==] holds between a number and itself unless it is a NaN. *)
Lemma xeq_fin_refl m e : xeq (XFin m e) (XFin m e) = true.
Proof.
  unfold xeq, xcompare. cbv zeta. now rewrite Z.compare_refl.
Qed.






(** * Lemmas on the array model *)

Lemma nums_of_scalars_inv xs : forall ns,
  nums_of_scalars xs = Some ns ->
  xs = map scalar_of_num ns /\ forallb wf_num ns = true.
Proof.
  induction xs as [|x xs IH]; simpl; intros ns.
  - intros [= <-]. now split.
  - destruct (num_of_scalar x) as [n|] eqn:Hn; [|discriminate].
    destruct (nums_of_scalars xs) as [ns'|]; [|discriminate].
    intros [= <-]. destruct (IH ns' eq_refl) as [-> Hwf]. simpl.
    destruct x; simpl in Hn; try discriminate.
    + injection Hn as <-. now split.
    + destruct (in_int64 z) eqn:Hz; [|discriminate].
      injection Hn as <-. simpl. rewrite Hz. now split.
    + injection Hn as <-. now split.
Qed.

Lemma nums_of_scalars_bools bs :
  nums_of_scalars (map SBool bs) = Some (map NBool bs).
Proof.
  induction bs as [|b bs IH]; simpl; [reflexivity|]. now rewrite IH.
Qed.

Lemma nums_of_scalars_floats fs :
  nums_of_scalars (map SFloat fs) = Some (map NFloat fs).
Proof.
  induction fs as [|f fs IH]; simpl; [reflexivity|]. now rewrite IH.
Qed.

Lemma nums_of_scalars_ints zs :
  forallb in_int64 zs = true ->
  nums_of_scalars (map SInt zs) = Some (map NInt zs).
Proof.
  induction zs as [|z zs IH]; simpl; [reflexivity|].
  intros [Hz Hzs]%andb_prop. now rewrite Hz, (IH Hzs).
Qed.

Lemma as_bools_inv ns : forall bs,
  as_bools ns = Some bs -> ns = map NBool bs.
Proof.
  induction ns as [|[b|z|f] ns IH]; simpl; intros bs; try discriminate.
  - now intros [= <-].
  - destruct (as_bools ns) as [bs'|]; simpl; [|discriminate].
    intros [= <-]. simpl. now rewrite (IH bs' eq_refl).
Qed.

Lemma as_bools_bools bs : as_bools (map NBool bs) = Some bs.
Proof.
  induction bs as [|b bs IH]; simpl; [reflexivity|]. now rewrite IH.
Qed.

Lemma as_ints_ints zs : as_ints (map NInt zs) = Some zs.
Proof.
  induction zs as [|z zs IH]; simpl; [reflexivity|]. now rewrite IH.
Qed.

Lemma in_int64_b2z b : in_int64 (Z.b2z b) = true.
Proof. now destruct b. Qed.

(** The ints of an int64 buffer built from numbers in range are in
    range, one per number. *)
Lemma as_ints_inv ns : forall zs,
  as_ints ns = Some zs -> forallb wf_num ns = true ->
  forallb in_int64 zs = true /\ List.length zs = List.length ns.
Proof.
  induction ns as [|[b|z|f] ns IH]; simpl; intros zs; try discriminate.
  - now intros [= <-].
  - destruct (as_ints ns) as [zs'|]; simpl; [|discriminate].
    intros [= <-] Hwf. destruct (IH zs' eq_refl Hwf) as [Hin Hlen].
    simpl. now rewrite in_int64_b2z, Hin, Hlen.
  - destruct (as_ints ns) as [zs'|]; simpl; [|discriminate].
    intros [= <-] [Hz Hwf]%andb_prop.
    destruct (IH zs' eq_refl Hwf) as [Hin Hlen].
    simpl. now rewrite Hz, Hin, Hlen.
Qed.

(** Only a float keeps a sequence of numbers out of an int64 buffer. *)
Lemma as_ints_none ns : as_ints ns = None -> existsb is_float ns = true.
Proof.
  induction ns as [|[b|z|f] ns IH]; simpl; try discriminate; try reflexivity.
  - destruct (as_ints ns); [discriminate|]. intros _. now apply IH.
  - destruct (as_ints ns); [discriminate|]. intros _. now apply IH.
Qed.

Lemma buffer_items_pack_length ns :
  forallb wf_num ns = true ->
  List.length (buffer_items (pack ns)) = List.length ns.
Proof.
  intros Hwf. unfold pack. destruct ns as [|n ns]; [reflexivity|].
  destruct (as_bools (n :: ns)) as [bs|] eqn:Hb.
  - rewrite (as_bools_inv _ _ Hb). cbn [buffer_items].
    now rewrite !length_map.
  - destruct (as_ints (n :: ns)) as [zs|] eqn:Hz.
    + destruct (as_ints_inv _ _ Hz Hwf) as [_ Hlen].
      cbn [buffer_items]. now rewrite length_map.
    + cbn [buffer_items]. now rewrite !length_map.
Qed.

(** Building an array from the items of a packed buffer gives that buffer
    again: [np.asarray(np.asarray(l).tolist())] has the data of
    [np.asarray(l)]. *)
Lemma repack ns :
  forallb wf_num ns = true ->
  exists ms,
    nums_of_scalars (buffer_items (pack ns)) = Some ms
    /\ List.length ms = List.length ns
    /\ pack ms = pack ns.
Proof.
  intros Hwf. unfold pack at 1 3. destruct ns as [|n ns].
  - exists []. now repeat split.
  - destruct (as_bools (n :: ns)) as [bs|] eqn:Hb.
    + exists (map NBool bs). cbn [buffer_items].
      rewrite nums_of_scalars_bools. split; [reflexivity|].
      pose proof (as_bools_inv _ _ Hb) as Hns. split.
      * now rewrite Hns.
      * rewrite <- Hns. unfold pack. now rewrite Hb.
    + destruct (as_ints (n :: ns)) as [zs|] eqn:Hz.
      * destruct (as_ints_inv _ _ Hz Hwf) as [Hin Hlen].
        exists (map NInt zs). cbn [buffer_items].
        rewrite (nums_of_scalars_ints _ Hin). split; [reflexivity|].
        split; [now rewrite length_map|].
        destruct zs as [|z zs]; [discriminate|].
        unfold pack. simpl map. cbn [as_bools].
        change (NInt z :: map NInt zs) with (map NInt (z :: zs)).
        now rewrite as_ints_ints.
      * exists (map NFloat (map float_of_num (n :: ns))). cbn [buffer_items].
        rewrite nums_of_scalars_floats. split; [reflexivity|].
        split; [now rewrite !length_map|].
        simpl. f_equal. f_equal.
        rewrite map_map. simpl. apply map_id.
Qed.

Lemma py_eq_b2z b : py_eq (SInt (Z.b2z b)) (SBool b) = true.
Proof. now destruct b. Qed.

Lemma py_eq_int z : py_eq (SInt z) (SInt z) = true.
Proof. apply xeq_fin_refl. Qed.

Lemma bools_keep bs : items_equal (map SBool bs) (map SBool bs).
Proof.
  induction bs as [|b bs IH]; constructor; [now destruct b | exact IH].
Qed.

Lemma ints_keep ns : forall zs,
  as_ints ns = Some zs ->
  items_equal (map SInt zs) (map scalar_of_num ns).
Proof.
  induction ns as [|[b|z|f] ns IH]; simpl; intros zs; try discriminate.
  - intros [= <-]. constructor.
  - destruct (as_ints ns) as [zs'|]; simpl; [|discriminate].
    intros [= <-]. simpl. constructor; [apply py_eq_b2z | now apply IH].
  - destruct (as_ints ns) as [zs'|]; simpl; [|discriminate].
    intros [= <-]. simpl. constructor; [apply py_eq_int | now apply IH].
Qed.

Lemma floats_keep ns :
  forallb exact_as_float ns = true ->
  items_equal (map SFloat (map float_of_num ns)) (map scalar_of_num ns).
Proof.
  induction ns as [|n ns IH]; simpl; [constructor|].
  intros [Hn Hns]%andb_prop. constructor; [exact Hn | now apply IH].
Qed.

(** The items of the packed buffer are equal to the numbers it was built
    from when the common dtype changes none of them. *)
Lemma pack_keeps ns :
  coercion_exact ns = true ->
  items_equal (buffer_items (pack ns)) (map scalar_of_num ns).
Proof.
  intros Hexact. unfold pack. destruct ns as [|n ns]; [constructor|].
  destruct (as_bools (n :: ns)) as [bs|] eqn:Hb.
  - rewrite (as_bools_inv _ _ Hb), map_map. apply bools_keep.
  - destruct (as_ints (n :: ns)) as [zs|] eqn:Hz.
    + now apply ints_keep.
    + cbn [buffer_items]. apply floats_keep.
      unfold coercion_exact in Hexact.
      now rewrite (as_ints_none _ Hz) in Hexact.
Qed.

Lemma map_nest_singletons {labels} (xs : list (pyval labels)) :
  map (nest []) (chunks 1 (List.length xs) xs) = xs.
Proof.
  induction xs as [|x xs IH]; simpl; [reflexivity|].
  f_equal. exact IH.
Qed.

(** * Properties *)

Section Properties.

Context {labels : Type}.
Context {numpy : Numpy labels} {parser : FloatParser}.
Context {codec : ArrayCodec labels} {eta : ImageLabelsClass labels}.

Implicit Types (value v : pyval labels) (a : ndarray).

(** ** Unset values *)

(** C8: each of [VectorField], [ArrayField] and [ImageLabelsField] maps
    [None] to [None] in both directions without raising, so an unset value
    comes back from storage as [None]. *)
Theorem none_round_trips :
  VectorField_to_mongo VNone = Ok VNone /\
  VectorField_to_python VNone = Ok VNone /\
  ArrayField_to_mongo VNone = Ok VNone /\
  ArrayField_to_python VNone = Ok VNone /\
  ImageLabelsField_to_mongo VNone = Ok VNone /\
  ImageLabelsField_to_python VNone = Ok VNone /\
  bind (VectorField_to_mongo VNone) VectorField_to_python = Ok VNone /\
  bind (ArrayField_to_mongo VNone) ArrayField_to_python = Ok VNone /\
  bind (ImageLabelsField_to_mongo VNone) ImageLabelsField_to_python = Ok VNone.
Proof. repeat split; reflexivity. Qed.

(** ** Validation of vectors and arrays *)

(** C3: [VectorField.validate] reports a field error for every array of
    more than one dimension and for every value that is not an array, a
    list or a tuple; it accepts every 1-D array, every list and every
    tuple. *)
Theorem VectorField_validate_cases value :
  (forall a, value = VArray a -> (1 < ndim a)%nat ->
     rejected (VectorField_validate value)
       "Only 1D arrays may be used in a vector field")
  /\ ((forall a, value <> VArray a) ->
      (forall l, value <> VList l) -> (forall l, value <> VTuple l) ->
      rejected (VectorField_validate value)
        "Only numpy arrays, lists, and tuples may be used in a vector field")
  /\ (forall a, value = VArray a -> ndim a = 1%nat ->
      VectorField_validate value = Ok tt)
  /\ (forall l, value = VList l \/ value = VTuple l ->
      VectorField_validate value = Ok tt).
Proof.
  unfold rejected. repeat split.
  - intros a -> Hrank. simpl.
    apply Nat.ltb_lt in Hrank. now rewrite Hrank.
  - intros Harray Hlist Htuple.
    destruct value; try reflexivity;
      [ now elim (Hlist l) | now elim (Htuple l) | now elim (Harray a) ].
  - intros a -> Hrank. simpl. now rewrite Hrank.
  - intros l [-> | ->]; reflexivity.
Qed.

(** C10: [VectorField.validate] accepts every 0-dimensional array: the
    only arrays it refuses are those of more than one dimension. *)
Theorem VectorField_validate_rank0 a :
  ndim a = 0%nat -> VectorField_validate (labels := labels) (VArray a) = Ok tt.
Proof.
  intros Hrank. simpl. now rewrite Hrank.
Qed.

(** C7: [ArrayField.validate] accepts every array and every [Binary]
    blob, and reports a field error for every other value. *)
Theorem ArrayField_validate_cases value :
  (forall a, value = VArray a -> ArrayField_validate value = Ok tt)
  /\ (forall bs, value = VBinary bs -> ArrayField_validate value = Ok tt)
  /\ ((forall a, value <> VArray a) -> (forall bs, value <> VBinary bs) ->
      rejected (ArrayField_validate value)
        "Only numpy arrays may be used in an array field").
Proof.
  unfold rejected. repeat split.
  - now intros a ->.
  - now intros bs ->.
  - intros Harray Hblob.
    destruct value; try reflexivity;
      [ now elim (Hblob bs) | now elim (Harray a) ].
Qed.

(** ** Construction of container fields *)

(** C5: given an element type that is neither [None] nor an instance of
    [Field], the constructors of [ListField] and [DictField] raise a
    [ValueError], so no field exists that could process a value; given
    [None] or an instance of [Field] they return the field. *)
Theorem container_init_cases (arg : pyobj labels) :
  (arg <> PValue VNone -> (forall f, arg <> PField f) ->
     ListField_init arg = Raise (ValueError (invalid_field_type arg))
     /\ DictField_init arg = Raise (ValueError (invalid_field_type arg)))
  /\ (arg = PValue VNone ->
      ListField_init arg = Ok (ListField None)
      /\ DictField_init arg = Ok (DictField None))
  /\ (forall f, arg = PField f ->
      ListField_init arg = Ok (ListField (Some f))
      /\ DictField_init arg = Ok (DictField (Some f))).
Proof.
  repeat split.
  - destruct arg as [[] | f | |]; try reflexivity;
      [ now elim H | now elim (H0 f) ].
  - destruct arg as [[] | f | |]; try reflexivity;
      [ now elim H | now elim (H0 f) ].
  - now subst.
  - now subst.
  - now subst.
  - now subst.
Qed.

(** ** Image labels *)

(** C6: when [from_dict] undoes [serialize] on an annotation, writing it
    through [ImageLabelsField.to_mongo] stores a dictionary and reading
    that back through [to_python] gives the annotation again. *)
Theorem ImageLabelsField_round_trip (o : labels) :
  ImageLabels_from_dict (VDict (ImageLabels_serialize o)) = Ok o ->
  ImageLabelsField_to_mongo (VImageLabels o)
    = Ok (VDict (ImageLabels_serialize o))
  /\ bind (ImageLabelsField_to_mongo (VImageLabels o))
          ImageLabelsField_to_python
     = Ok (VImageLabels o).
Proof.
  intros Hinverse. split; [reflexivity|].
  simpl. now rewrite Hinverse.
Qed.

(** C9: a plain dictionary passes [ImageLabelsField.validate], yet
    [to_mongo] fails on it, for a dictionary has no [serialize] method. *)
Theorem ImageLabelsField_dict_validates_but_fails (d : list (pyval labels * pyval labels)) :
  ImageLabelsField_validate (VDict d) = Ok tt
  /\ ImageLabelsField_to_mongo (VDict d) = Raise (AttributeError "serialize").
Proof. split; reflexivity. Qed.

(** ** Arrays of any rank *)

(** C2: for a numeric array of rank at least one on which the codec keeps
    its contract (what [serialize_numpy_array] returns,
    [deserialize_numpy_array] turns back into the array), writing through
    [ArrayField.to_mongo] and reading through [to_python] gives the array
    again, with its shape and its elements. *)
Theorem ArrayField_round_trip a bs :
  numeric a = true -> (1 <= ndim a)%nat ->
  serialize_numpy_array (VArray a) = Ok bs ->
  deserialize_numpy_array (VBinary bs) = Ok a ->
  ArrayField_to_mongo (VArray a) = Ok (VBinary bs)
  /\ bind (ArrayField_to_mongo (VArray a)) ArrayField_to_python
     = Ok (VArray a).
Proof.
  intros _ _ Hwrite Hread.
  unfold ArrayField_to_mongo. rewrite Hwrite.
  unfold BinaryField_to_mongo. simpl.
  split; [reflexivity|]. now rewrite Hread.
Qed.

(** ** Float ranges *)

(** C4, as amended: the bounds are tested on the float the input
    converts to.  For an input that converts to the float [f], validation
    succeeds when [f] lies within the bounds that are set; it fails with
    'Float value is too small' when [f] is below the minimum, and with a
    range message ('too large', or 'too small' if [f] is below the minimum
    as well) when [f] is above the maximum. *)
Theorem FloatField_validate_range min_value max_value value f :
  py_float value = Ok f ->
  (within_bounds min_value max_value f = true ->
     FloatField_validate min_value max_value value = Ok tt)
  /\ (below f min_value = true ->
      rejected (FloatField_validate min_value max_value value)
        "Float value is too small")
  /\ (above f max_value = true ->
      rejected (FloatField_validate min_value max_value value)
        (if below f min_value then "Float value is too small"
         else "Float value is too large")).
Proof.
  intros Hf. unfold FloatField_validate, rejected. rewrite Hf. cbn [bind].
  unfold within_bounds, below, above, float_lt, float_gt.
  split; [|split].
  - intros [Hmin Hmax]%andb_prop.
    destruct min_value as [lo|]; cbn [bind].
    + rewrite (xle_not_xlt_flip _ _ Hmin). cbn [bind].
      destruct max_value as [hi|]; [|reflexivity].
      now rewrite (xle_not_xgt _ _ Hmax).
    + destruct max_value as [hi|]; [|reflexivity].
      now rewrite (xle_not_xgt _ _ Hmax).
  - destruct min_value as [lo|]; [|discriminate].
    now intros ->.
  - destruct max_value as [hi|]; [|discriminate]. intros Habove.
    destruct min_value as [lo|]; cbn [bind].
    + destruct (xlt _ _); [reflexivity|]. cbn [bind]. now rewrite Habove.
    + now rewrite Habove.
Qed.

(** ** Vectors through storage *)

Lemma scalar_of_value_of_scalar x :
  scalar_of_value (labels := labels) (value_of_scalar x) = Some x.
Proof. now destruct x. Qed.

Lemma nums_of_values_of_scalars xs :
  nums_of_values (labels := labels) (map value_of_scalar xs)
  = nums_of_scalars xs.
Proof.
  induction xs as [|x xs IH]; simpl; [reflexivity|].
  unfold num_of_value. now rewrite scalar_of_value_of_scalar, IH.
Qed.

Lemma nums_of_values_scalars (l : list (pyval labels)) : forall xs,
  scalars_of_values l = Some xs -> nums_of_values l = nums_of_scalars xs.
Proof.
  induction l as [|v l IH]; simpl; intros xs.
  - now intros [= <-].
  - unfold num_of_value. destruct (scalar_of_value v) as [x|]; [|discriminate].
    destruct (scalars_of_values l) as [xs'|]; [|discriminate].
    intros [= <-]. simpl. now rewrite (IH xs' eq_refl).
Qed.

(** [tolist] of an array of shape [(n,)] is the list of its items. *)
Lemma np_tolist_1d a :
  shape a = [List.length (array_items a)] ->
  np_tolist (labels := labels) a = VList (map value_of_scalar (array_items a)).
Proof.
  intros Hshape. unfold np_tolist. rewrite Hshape.
  rewrite <- (length_map (value_of_scalar (labels := labels))).
  change (nest [?n] ?xs) with (VList (map (nest []) (chunks 1 n xs))).
  now rewrite map_nest_singletons.
Qed.

(** Reading a stored list of numbers builds their array. *)
Lemma VectorField_to_python_numbers xs ns :
  nums_of_scalars xs = Some ns ->
  VectorField_to_python (VList (map value_of_scalar xs))
  = Ok (VArray (mk_ndarray [List.length ns] (pack ns))).
Proof.
  intros Hns. unfold VectorField_to_python, np_asarray.
  now rewrite nums_of_values_of_scalars, Hns.
Qed.

(** Through storage, a flat sequence of numbers becomes the array
    [np.asarray] makes of it. *)
Lemma vector_round_trip_sequence (v : pyval labels) l xs ns :
  v = VList l \/ v = VTuple l ->
  scalars_of_values l = Some xs ->
  nums_of_scalars xs = Some ns ->
  vector_round_trip v = Ok (VArray (mk_ndarray [List.length ns] (pack ns))).
Proof.
  intros Hv Hxs Hns.
  destruct (nums_of_scalars_inv _ _ Hns) as [_ Hwf].
  destruct (repack ns Hwf) as (ms & Hms & Hlen & Hpack).
  assert (Hmongo : VectorField_to_mongo v
                   = Ok (VList (map value_of_scalar (buffer_items (pack ns))))).
  { destruct Hv as [-> | ->]; unfold VectorField_to_mongo, np_asarray;
      rewrite (nums_of_values_scalars _ _ Hxs), Hns; cbn [bind];
      rewrite np_tolist_1d; try reflexivity;
      unfold array_items; cbn [shape data];
      now rewrite buffer_items_pack_length. }
  unfold vector_round_trip. rewrite Hmongo. cbn [bind].
  rewrite (VectorField_to_python_numbers _ _ Hms).
  now rewrite Hlen, Hpack.
Qed.


End Properties.

(** * The statements at concrete inputs *)



(** A NaN reads back as a NaN, which is not equal to the original either:
    [[nan]] is a second input on which the claim as stated fails. *)
Example vector_round_trip_nan_unequal :
  vector_round_trip (labels := toy_labels) (VList [VFloat nan])
  = Ok (VArray (mk_ndarray [1%nat] (Float64Buf [nan])))
  /\ ~ round_trip_equal (labels := toy_labels) (VList [VFloat nan]) [SFloat nan].
Proof.
  assert (Hrun : vector_round_trip (labels := toy_labels) (VList [VFloat nan])
                 = Ok (VArray (mk_ndarray [1%nat] (Float64Buf [nan]))))
    by (vm_compute; reflexivity).
  split; [exact Hrun|].
  intros (a & Hrt & _ & Hitems).
  rewrite Hrun in Hrt. injection Hrt as <-.
  inversion Hitems as [|x y xs ys Hsame _]; subst.
  vm_compute in Hsame. discriminate Hsame.
Qed.

(** A 3-element bool array through the one-byte-per-element codec. *)
Lemma ArrayField_round_trip_witness :
  ArrayField_to_mongo (labels := toy_labels)
    (VArray (mk_ndarray [3%nat] (BoolBuf [true; false; true])))
  = Ok (VBinary [x01; x00; x01])
  /\ bind (ArrayField_to_mongo (labels := toy_labels)
             (VArray (mk_ndarray [3%nat] (BoolBuf [true; false; true]))))
          ArrayField_to_python
     = Ok (VArray (mk_ndarray [3%nat] (BoolBuf [true; false; true]))).
Proof.
  apply (ArrayField_round_trip
           (mk_ndarray [3%nat] (BoolBuf [true; false; true]))
           [x01; x00; x01]).
  - reflexivity.
  - cbv [ndim shape List.length]. lia.
  - reflexivity.
  - reflexivity.
Defined.

(** A 2x2 array and a string are refused; a 3-vector and a list pass. *)
Lemma VectorField_validate_cases_witness :
  rejected (VectorField_validate (labels := toy_labels)
              (VArray (mk_ndarray [2%nat; 2%nat] (Int64Buf [1; 2; 3; 4]))))
    "Only 1D arrays may be used in a vector field"
  /\ rejected (VectorField_validate (labels := toy_labels) (VStr "abc"))
       "Only numpy arrays, lists, and tuples may be used in a vector field"
  /\ VectorField_validate (labels := toy_labels)
       (VArray (mk_ndarray [3%nat] (Int64Buf [1; 2; 3]))) = Ok tt
  /\ VectorField_validate (labels := toy_labels) (VList [VInt 1; VInt 2])
     = Ok tt.
Proof.
  refine (conj _ (conj _ (conj _ _))).
  - apply (proj1 (VectorField_validate_cases _)
             (mk_ndarray [2%nat; 2%nat] (Int64Buf [1; 2; 3; 4])) eq_refl).
    cbv [ndim shape List.length]. lia.
  - apply (proj1 (proj2 (VectorField_validate_cases _))); discriminate.
  - now apply (proj1 (proj2 (proj2 (VectorField_validate_cases _)))
                 (mk_ndarray [3%nat] (Int64Buf [1; 2; 3]))).
  - apply (proj2 (proj2 (proj2 (VectorField_validate_cases _)))
             [VInt 1; VInt 2]).
    now left.
Defined.

(** The 0-d array [np.asarray(1.5)] passes. *)
Lemma VectorField_validate_rank0_witness :
  VectorField_validate (labels := toy_labels)
    (VArray (mk_ndarray [] (Float64Buf [1.5%float]))) = Ok tt.
Proof.
  apply (VectorField_validate_rank0 (mk_ndarray [] (Float64Buf [1.5%float]))).
  reflexivity.
Defined.

(** An array and a blob pass; plain bytes and a list are refused. *)
Lemma ArrayField_validate_cases_witness :
  ArrayField_validate (labels := toy_labels)
    (VArray (mk_ndarray [2%nat] (Float64Buf [0.5%float; 1.5%float]))) = Ok tt
  /\ ArrayField_validate (labels := toy_labels) (VBinary [x01; x00]) = Ok tt
  /\ rejected (ArrayField_validate (labels := toy_labels) (VBytes [x01; x00]))
       "Only numpy arrays may be used in an array field"
  /\ rejected (ArrayField_validate (labels := toy_labels) (VList [VInt 1]))
       "Only numpy arrays may be used in an array field".
Proof.
  refine (conj _ (conj _ (conj _ _))).
  - now apply (proj1 (ArrayField_validate_cases _)
                 (mk_ndarray [2%nat] (Float64Buf [0.5%float; 1.5%float]))).
  - now apply (proj1 (proj2 (ArrayField_validate_cases _)) [x01; x00]).
  - apply (proj2 (proj2 (ArrayField_validate_cases _))); discriminate.
  - apply (proj2 (proj2 (ArrayField_validate_cases _))); discriminate.
Defined.

(** With bounds 0 and 1.0: 0.5 passes, -3 is too small, 1.5 too large. *)
Lemma FloatField_validate_range_witness :
  FloatField_validate (labels := toy_labels)
    (Some (NInt 0)) (Some (NFloat 1)) (VFloat 0.5) = Ok tt
  /\ rejected (FloatField_validate (labels := toy_labels)
                 (Some (NInt 0)) (Some (NFloat 1)) (VInt (-3)))
       "Float value is too small"
  /\ rejected (FloatField_validate (labels := toy_labels)
                 (Some (NInt 0)) (Some (NFloat 1)) (VFloat 1.5))
       "Float value is too large".
Proof.
  refine (conj _ (conj _ _)).
  - apply (proj1 (FloatField_validate_range (Some (NInt 0)) (Some (NFloat 1))
                    (VFloat 0.5) 0.5%float eq_refl)).
    vm_compute. reflexivity.
  - apply (proj1 (proj2 (FloatField_validate_range
                           (Some (NInt 0)) (Some (NFloat 1))
                           (VInt (-3)) (-3)%float eq_refl))).
    vm_compute. reflexivity.
  - apply (proj2 (proj2 (FloatField_validate_range
                           (Some (NInt 0)) (Some (NFloat 1))
                           (VFloat 1.5) 1.5%float eq_refl))).
    vm_compute. reflexivity.
Defined.

(** C4, as stated, fails on ints that [float] rounds: with a maximum of
    2^53 + 3, the input 2^53 + 3 lies within the bounds, yet is refused as
    too large, for it is tested as the float 2^53 + 4; with a maximum of
    2^53, the input 2^53 + 1 lies above it, yet passes, tested as the float
    2^53. *)
Lemma FloatField_validate_rounds_input :
  (input_within None (Some (NInt 9007199254740995)) (NInt 9007199254740995)
   = true
   /\ py_float (labels := toy_labels) (VInt 9007199254740995)
      = Ok 9007199254740996%float
   /\ rejected (FloatField_validate (labels := toy_labels)
                  None (Some (NInt 9007199254740995)) (VInt 9007199254740995))
        "Float value is too large")
  /\ (input_above (NInt 9007199254740993) (Some (NInt 9007199254740992))
      = true
      /\ py_float (labels := toy_labels) (VInt 9007199254740993)
         = Ok 9007199254740992%float
      /\ FloatField_validate (labels := toy_labels)
           None (Some (NInt 9007199254740992)) (VInt 9007199254740993)
         = Ok tt).
Proof.
  repeat split; vm_compute; reflexivity.
Qed.

(** A field class in place of an instance is refused; [None] and an
    [IntField()] are taken. *)
Lemma container_init_cases_witness :
  (ListField_init (labels := toy_labels) (PType "IntField")
   = Raise (ValueError (invalid_field_type (PType "IntField")))
   /\ DictField_init (labels := toy_labels) (PType "IntField")
      = Raise (ValueError (invalid_field_type (PType "IntField"))))
  /\ (ListField_init (labels := toy_labels) (PValue VNone) = Ok (ListField None)
      /\ DictField_init (labels := toy_labels) (PValue VNone)
         = Ok (DictField None))
  /\ (ListField_init (labels := toy_labels) (PField IntField)
      = Ok (ListField (Some IntField))
      /\ DictField_init (labels := toy_labels) (PField IntField)
         = Ok (DictField (Some IntField))).
Proof.
  split; [|split].
  - apply (proj1 (container_init_cases (PType "IntField"))); discriminate.
  - now apply (proj1 (proj2 (container_init_cases (PValue VNone)))).
  - now apply (proj2 (proj2 (container_init_cases (PField IntField))) IntField).
Defined.

(** The annotation of [frame.jpg] through its one-entry dictionary. *)
Lemma ImageLabelsField_round_trip_witness :
  ImageLabelsField_to_mongo (labels := toy_labels) (VImageLabels "frame.jpg")
  = Ok (VDict [(VStr "filename", VStr "frame.jpg")])
  /\ bind (ImageLabelsField_to_mongo (labels := toy_labels)
             (VImageLabels "frame.jpg"))
          ImageLabelsField_to_python
     = Ok (VImageLabels "frame.jpg").
Proof.
  apply (ImageLabelsField_round_trip (eta := toy_eta) "frame.jpg").
  reflexivity.
Defined.

(** * Runs of the model *)

(** The list [[1, 2, 3]] is stored as it is and read as an int64 array. *)
Example vector_of_ints_stored :
  VectorField_to_mongo (labels := toy_labels) (VList [VInt 1; VInt 2; VInt 3])
  = Ok (VList [VInt 1; VInt 2; VInt 3])
  /\ VectorField_to_python (labels := toy_labels)
       (VList [VInt 1; VInt 2; VInt 3])
     = Ok (VArray (mk_ndarray [3%nat] (Int64Buf [1; 2; 3]))).
Proof. split; reflexivity. Qed.

(** [to_mongo] does not look at the rank: a 2x2 array is stored as nested
    lists, a 0-d array as its item. *)
Example vector_to_mongo_other_ranks :
  VectorField_to_mongo (labels := toy_labels)
    (VArray (mk_ndarray [2%nat; 2%nat] (Int64Buf [1; 2; 3; 4])))
  = Ok (VList [VList [VInt 1; VInt 2]; VList [VInt 3; VInt 4]])
  /\ VectorField_to_mongo (labels := toy_labels)
       (VArray (mk_ndarray [] (Int64Buf [7])))
     = Ok (VInt 7).
Proof. split; reflexivity. Qed.

(** Halfway cases go to the even neighbour, as in C: 2^53 + 1 becomes
    2^53 and 2^53 + 3 becomes 2^53 + 4. *)
Example float_of_Z_ties_to_even :
  float_of_Z 9007199254740993 = 9007199254740992%float
  /\ float_of_Z 9007199254740995 = 9007199254740996%float.
Proof. split; vm_compute; reflexivity. Qed.

(** Failures of the conversion are reported as field errors. *)
Example FloatField_validate_conversion_failures :
  FloatField_validate (labels := toy_labels) None None (VStr "abc")
  = Raise (ValidationError
             (Format "%s could not be converted to float" [PValue (VStr "abc")]))
  /\ FloatField_validate (labels := toy_labels) None None (VInt (2 ^ 1024))
     = Raise (ValidationError
                (Literal "The value is too large to be converted to float")).
Proof. split; vm_compute; reflexivity. Qed.

(** * Further properties *)

Section FurtherProperties.

Context {labels : Type}.
Context {numpy : Numpy labels} {parser : FloatParser}.
Context {codec : ArrayCodec labels} {eta : ImageLabelsClass labels}.

Implicit Types (value v r : pyval labels) (a : ndarray).

(** ** FloatField *)

(** [float] raises nothing but the three exceptions [validate] handles. *)
Lemma py_float_raises value e :
  py_float value = Raise e ->
  e = OverflowError \/ e = TypeError \/ exists m, e = ValueError m.
Proof.
  unfold py_float, parse_float.
  repeat match goal with
         | |- context [match ?x with _ => _ end] => destruct x
         end;
    intros [= <-]; eauto.
Qed.

Lemma FloatField_validate_converted min_value max_value value f :
  py_float value = Ok f ->
  FloatField_validate min_value max_value value
  = if below f min_value
    then error (Literal "Float value is too small")
    else if above f max_value
         then error (Literal "Float value is too large")
         else Ok tt.
Proof.
  intros Hf. unfold FloatField_validate. rewrite Hf. cbn [bind].
  unfold below, above, float_lt, float_gt.
  destruct min_value as [lo|], max_value as [hi|]; cbn [bind];
    repeat match goal with
           | |- context [if ?c then _ else _] => destruct c; cbn [bind]
           end;
    reflexivity.
Qed.

Lemma FloatField_validate_unconverted min_value max_value value e :
  py_float value = Raise e ->
  exists e', FloatField_validate min_value max_value value = Raise e'.
Proof.
  intros He. unfold FloatField_validate. rewrite He.
  destruct (py_float_raises _ _ He) as [-> | [-> | [m ->]]]; cbn [bind].
  - now eexists.
  - destruct (py_format _ value); now eexists.
  - destruct (py_format _ value); now eexists.
Qed.

Lemma FloatField_validate_ok_inv min_value max_value value :
  FloatField_validate min_value max_value value = Ok tt ->
  exists f, py_float value = Ok f
            /\ below f min_value = false /\ above f max_value = false.
Proof.
  destruct (py_float value) as [f|e] eqn:Hf.
  - rewrite (FloatField_validate_converted _ _ _ _ Hf).
    exists f. destruct (below f min_value), (above f max_value);
      try discriminate. now repeat split.
  - destruct (FloatField_validate_unconverted min_value max_value _ _ Hf)
      as [e' ->].
    discriminate.
Qed.

(** X1: [FloatField.validate] returns normally exactly when the value
    converts to a float that is neither below the minimum nor above the
    maximum. *)
Theorem FloatField_validate_ok_iff min_value max_value value :
  FloatField_validate min_value max_value value = Ok tt
  <-> exists f, py_float value = Ok f
                /\ below f min_value = false /\ above f max_value = false.
Proof.
  split.
  - apply FloatField_validate_ok_inv.
  - intros (f & Hf & Hlo & Hhi).
    now rewrite (FloatField_validate_converted _ _ _ _ Hf), Hlo, Hhi.
Qed.

(** X2: a value that converts to NaN passes [FloatField.validate] whatever
    the bounds, for a NaN is neither below nor above anything. *)
Theorem FloatField_validate_nan min_value max_value value f :
  py_float value = Ok f -> not_a_number f = true ->
  FloatField_validate min_value max_value value = Ok tt.
Proof.
  intros Hf Hnan. rewrite (FloatField_validate_converted _ _ _ _ Hf).
  unfold not_a_number in Hnan. unfold below, above, xlt, xgt.
  destruct (xreal_of_float f); try discriminate.
  now destruct min_value, max_value.
Qed.

(** X3: when [float(value)] fails and the value is not a tuple,
    [FloatField.validate] reports a field error, with the overflow message
    for an int beyond the floats and the 'could not be converted' message
    otherwise. *)
Theorem FloatField_validate_conversion_error min_value max_value value e :
  py_float value = Raise e -> (forall l, value <> VTuple l) ->
  FloatField_validate min_value max_value value
  = Raise (ValidationError (conversion_error value e)).
Proof.
  intros He Hvalue. unfold FloatField_validate. rewrite He.
  assert (Hformat : forall t, py_format t value = Ok (Format t [PValue value])).
  { intros t. destruct value; try reflexivity. now elim (Hvalue l). }
  destruct (py_float_raises _ _ He) as [-> | [-> | [m ->]]]; cbn [bind];
    try rewrite Hformat; reflexivity.
Qed.

(** X4: on a tuple, building the message is what fails or not: a tuple
    that has not exactly one element makes [FloatField.validate] raise a
    [TypeError] instead of a field error, and a 1-tuple is reported with
    its element in the message. *)
Theorem FloatField_validate_tuple min_value max_value (l : list (pyval labels)) :
  (List.length l <> 1%nat ->
     FloatField_validate min_value max_value (VTuple l) = Raise TypeError)
  /\ (forall x, l = [x] ->
      FloatField_validate min_value max_value (VTuple l)
      = Raise (ValidationError
                 (Format "%s could not be converted to float" [PValue x]))).
Proof.
  split.
  - intros Hlen. destruct l as [|x [|y l]]; try reflexivity. now elim Hlen.
  - now intros x ->.
Qed.

(** X5: the range checks see the value only through [float]: a value and
    the float it converts to are validated alike, so an int that rounds
    down to the maximum passes. *)
Theorem FloatField_validate_as_float min_value max_value value f :
  py_float value = Ok f ->
  FloatField_validate min_value max_value value
  = FloatField_validate min_value max_value (VFloat f).
Proof.
  intros Hf.
  rewrite (FloatField_validate_converted _ _ value f Hf).
  now rewrite (FloatField_validate_converted _ _ (VFloat f) f eq_refl).
Qed.

(** X6: with the minimum above the maximum, the only values that pass
    [FloatField.validate] are those that convert to NaN. *)
Theorem FloatField_validate_inverted_bounds lo hi value :
  xgt (xreal_of_num lo) (xreal_of_num hi) = true ->
  FloatField_validate (Some lo) (Some hi) value = Ok tt ->
  exists f, py_float value = Ok f /\ not_a_number f = true.
Proof.
  intros Hinv Hok.
  apply FloatField_validate_ok_inv in Hok as (f & Hf & Hlo & Hhi).
  exists f. split; [exact Hf|].
  unfold not_a_number. unfold below in Hlo. unfold above in Hhi.
  destruct (xreal_of_float f) as [|s|m e] eqn:Hx; [reflexivity| |];
    exfalso; destruct (xgt_not_nan _ _ Hinv) as [Hnlo Hnhi];
    (assert (H1 : xle (xreal_of_num lo) (xreal_of_float f) = true)
       by (rewrite Hx; apply not_xlt_xle; [discriminate | assumption | assumption]));
    (assert (H2 : xle (xreal_of_float f) (xreal_of_num hi) = true)
       by (rewrite Hx; apply not_xgt_xle; [discriminate | assumption | assumption]));
    pose proof (xle_not_xgt _ _ (xle_trans _ _ _ H1 H2)) as Hcontra;
    congruence.
Qed.

(** ** Reading *)

(** X7: what [to_python] returns is [None] or the in-memory form (an
    array for [VectorField] and [ArrayField], an annotation for
    [ImageLabelsField]), and reading it once more gives it back
    unchanged. *)
Theorem to_python_idempotent v r :
  (VectorField_to_python v = Ok r ->
     (r = VNone \/ exists a, r = VArray a) /\ VectorField_to_python r = Ok r)
  /\ (ArrayField_to_python v = Ok r ->
      (r = VNone \/ exists a, r = VArray a) /\ ArrayField_to_python r = Ok r)
  /\ (ImageLabelsField_to_python v = Ok r ->
      (r = VNone \/ exists o, r = VImageLabels o)
      /\ ImageLabelsField_to_python r = Ok r).
Proof.
  split; [|split].
  - unfold VectorField_to_python.
    destruct v; try (intros [= <-]; split; eauto; reflexivity);
      destruct (np_asarray _) as [a'|]; cbn [bind]; intros [= <-];
      split; eauto.
  - unfold ArrayField_to_python.
    destruct v; try (intros [= <-]; split; eauto; reflexivity);
      destruct (deserialize_numpy_array _) as [a'|]; cbn [bind]; intros [= <-];
      split; eauto.
  - unfold ImageLabelsField_to_python.
    destruct v; try (intros [= <-]; split; eauto; reflexivity);
      destruct (ImageLabels_from_dict _) as [o'|]; cbn [bind]; intros [= <-];
      split; eauto.
Qed.

(** ** Writing *)

Lemma chunks_length {A} k n (xs : list A) : List.length (chunks k n xs) = n.
Proof.
  revert xs. induction n as [|n IH]; intros xs; simpl; [reflexivity|].
  now rewrite IH.
Qed.

(** X9: what [ArrayField.to_mongo] and [ImageLabelsField.to_mongo] store
    for a value other than [None] is a [Binary] blob, respectively a
    dictionary, and passes the [validate] of the same field. *)
Theorem stored_form_validates v r :
  v <> VNone ->
  (ArrayField_to_mongo v = Ok r ->
     (exists bs, r = VBinary bs) /\ ArrayField_validate r = Ok tt)
  /\ (ImageLabelsField_to_mongo v = Ok r ->
      (exists d, r = VDict d) /\ ImageLabelsField_validate r = Ok tt).
Proof.
  intros Hv. split.
  - unfold ArrayField_to_mongo.
    destruct v; try (now elim Hv);
      destruct (serialize_numpy_array _) as [blob|]; cbn [bind];
      try discriminate; intros [= <-]; split; eauto.
  - unfold ImageLabelsField_to_mongo, py_serialize.
    destruct v; try (now elim Hv); try discriminate.
    intros [= <-]. split; eauto.
Qed.

(** X10: [VectorField.to_mongo] does not look at the rank: an array of
    shape [(n, ...)] is stored as a list of [n] entries, which
    [VectorField.validate] accepts, also when it refuses the array itself
    for having more than one dimension. *)
Theorem VectorField_to_mongo_any_rank a n rest :
  shape a = n :: rest ->
  (exists l, VectorField_to_mongo (labels := labels) (VArray a) = Ok (VList l)
             /\ List.length l = n
             /\ VectorField_validate (labels := labels) (VList l) = Ok tt)
  /\ (rest <> [] ->
      rejected (VectorField_validate (labels := labels) (VArray a))
        "Only 1D arrays may be used in a vector field").
Proof.
  intros Hshape. split.
  - unfold VectorField_to_mongo, np_asarray, np_tolist. cbn [bind].
    rewrite Hshape. cbn [nest]. eexists. split; [reflexivity|].
    split; [|reflexivity]. now rewrite length_map, chunks_length.
  - intros Hrest. unfold rejected, VectorField_validate, ndim.
    rewrite Hshape. destruct rest; [now elim Hrest | reflexivity].
Qed.

(** X11: a 0-d array passes [VectorField.validate], but [to_mongo] stores
    its item bare, not in a list, and that stored value does not pass
    [validate]. *)
Theorem VectorField_rank0_stored_bare a x :
  shape a = [] -> array_items a = [x] ->
  VectorField_validate (labels := labels) (VArray a) = Ok tt
  /\ VectorField_to_mongo (labels := labels) (VArray a)
     = Ok (value_of_scalar x)
  /\ rejected (VectorField_validate (labels := labels) (value_of_scalar x))
       "Only numpy arrays, lists, and tuples may be used in a vector field".
Proof.
  intros Hshape Hitems. split; [|split].
  - unfold VectorField_validate, ndim. now rewrite Hshape.
  - unfold VectorField_to_mongo, np_asarray, np_tolist. cbn [bind].
    now rewrite Hshape, Hitems.
  - now destruct x.
Qed.

Lemma VectorField_to_mongo_1d a :
  shape a = [List.length (array_items a)] ->
  VectorField_to_mongo (labels := labels) (VArray a)
  = Ok (VList (map value_of_scalar (array_items a))).
Proof.
  intros Hshape. unfold VectorField_to_mongo, np_asarray. cbn [bind].
  now rewrite np_tolist_1d.
Qed.

(** X12: a 1-D array of any dtype, one of object references included, is
    stored as the list of its items, in order and as many. *)
Theorem VectorField_to_mongo_vector a :
  shape a = [List.length (array_items a)] ->
  exists l, VectorField_to_mongo (labels := labels) (VArray a) = Ok (VList l)
            /\ l = map value_of_scalar (array_items a)
            /\ List.length l = List.length (array_items a).
Proof.
  intros Hshape. eexists. split; [now apply VectorField_to_mongo_1d|].
  split; [reflexivity|]. apply length_map.
Qed.

(** ** Flat sequences of numbers *)

Lemma nums_of_values_split (l : list (pyval labels)) : forall ns,
  nums_of_values l = Some ns ->
  exists xs, scalars_of_values l = Some xs
             /\ nums_of_scalars xs = Some ns
             /\ List.length ns = List.length l.
Proof.
  induction l as [|v l IH]; simpl; intros ns.
  - intros [= <-]. now exists [].
  - unfold num_of_value.
    destruct (scalar_of_value v) as [x|]; [|discriminate].
    destruct (num_of_scalar x) as [n|] eqn:Hn; [|discriminate].
    destruct (nums_of_values l) as [ns'|]; [|discriminate].
    intros [= <-]. destruct (IH ns' eq_refl) as (xs & -> & Hxs & Hlen).
    exists (x :: xs). simpl. now rewrite Hn, Hxs, Hlen.
Qed.

Lemma nums_of_values_wf (l : list (pyval labels)) ns :
  nums_of_values l = Some ns -> forallb wf_num ns = true.
Proof.
  intros Hns. destruct (nums_of_values_split _ _ Hns) as (xs & _ & Hxs & _).
  now destruct (nums_of_scalars_inv _ _ Hxs).
Qed.

(** What is stored for a flat sequence of numbers: the items of the array
    [np.asarray] makes of it. *)
Lemma VectorField_to_mongo_sequence v (l : list (pyval labels)) ns :
  v = VList l \/ v = VTuple l ->
  nums_of_values l = Some ns ->
  VectorField_to_mongo v
  = Ok (VList (map value_of_scalar (buffer_items (pack ns)))).
Proof.
  intros Hv Hns. pose proof (nums_of_values_wf _ _ Hns) as Hwf.
  destruct Hv as [-> | ->]; unfold VectorField_to_mongo, np_asarray;
    rewrite Hns; cbn [bind];
    rewrite np_tolist_1d; try reflexivity;
    unfold array_items; cbn [shape data];
    now rewrite buffer_items_pack_length.
Qed.

Lemma pack_homogeneous ns :
  homogeneous (labels := labels)
    (map value_of_scalar (buffer_items (pack ns))) = true.
Proof.
  unfold homogeneous, pack. destruct ns as [|n ns]; [reflexivity|].
  destruct (as_bools (n :: ns)) as [bs|].
  - cbn [buffer_items]. rewrite map_map.
    replace (forallb is_VBool _) with true; [reflexivity|].
    symmetry. apply forallb_forall. now intros v (b & <- & _)%in_map_iff.
  - destruct (as_ints (n :: ns)) as [zs|]; cbn [buffer_items]; rewrite map_map.
    + replace (forallb is_VInt _) with true; [now rewrite orb_true_r|].
      symmetry. apply forallb_forall. now intros v (z & <- & _)%in_map_iff.
    + replace (forallb is_VFloat _) with true; [apply orb_true_r|].
      symmetry. apply forallb_forall. now intros v (f & <- & _)%in_map_iff.
Qed.

(** X13: a flat list or tuple of numbers is stored as a list of the same
    length whose elements are of one type: all bools, all ints or all
    floats. *)
Theorem VectorField_to_mongo_homogeneous v (l : list (pyval labels)) ns :
  v = VList l \/ v = VTuple l ->
  nums_of_values l = Some ns ->
  exists l', VectorField_to_mongo v = Ok (VList l')
             /\ List.length l' = List.length l
             /\ homogeneous l' = true.
Proof.
  intros Hv Hns. eexists. split; [|split].
  - now apply (VectorField_to_mongo_sequence v l ns).
  - rewrite length_map, buffer_items_pack_length
      by (now apply (nums_of_values_wf l)).
    now destruct (nums_of_values_split _ _ Hns) as (_ & _ & _ & ->).
  - apply pack_homogeneous.
Qed.

(** X14: on a flat list or tuple of numbers [VectorField.to_mongo] is
    idempotent: what it stores, it stores unchanged when written again. *)
Theorem VectorField_to_mongo_idempotent v (l : list (pyval labels)) ns r :
  v = VList l \/ v = VTuple l ->
  nums_of_values l = Some ns ->
  VectorField_to_mongo v = Ok r ->
  VectorField_to_mongo r = Ok r.
Proof.
  intros Hv Hns.
  rewrite (VectorField_to_mongo_sequence v l ns Hv Hns). intros [= <-].
  destruct (repack ns (nums_of_values_wf _ _ Hns)) as (ms & Hms & _ & Hpack).
  rewrite <- Hpack at 2.
  apply (VectorField_to_mongo_sequence _
           (map value_of_scalar (buffer_items (pack ns))) ms); [now left|].
  now rewrite nums_of_values_of_scalars.
Qed.

(** X15: for a flat list or tuple of numbers, writing and then reading
    gives what reading the value directly gives: the 1-D array
    [np.asarray] makes of it, one element per element of the sequence. *)
Theorem vector_round_trip_is_to_python v (l : list (pyval labels)) ns :
  v = VList l \/ v = VTuple l ->
  nums_of_values l = Some ns ->
  vector_round_trip v = VectorField_to_python v
  /\ exists a, VectorField_to_python v = Ok (VArray a)
               /\ shape a = [List.length l].
Proof.
  intros Hv Hns.
  destruct (nums_of_values_split _ _ Hns) as (xs & Hxs & Hnums & Hlen).
  assert (Hread : VectorField_to_python v
                  = Ok (VArray (mk_ndarray [List.length ns] (pack ns)))).
  { destruct Hv as [-> | ->]; unfold VectorField_to_python, np_asarray;
      now rewrite Hns. }
  split.
  - rewrite Hread. now apply (vector_round_trip_sequence v l xs).
  - eexists. split; [exact Hread|]. cbn [shape]. now rewrite Hlen.
Qed.

(** X19: for a flat list or tuple, or a 1-D array, of bools, ints within
    64 bits and floats, none of them a NaN, in which no int without an
    exact float64 value occurs together with a float, the round trip gives
    a 1-D array whose elements are equal ([==]) to the original values in
    their order. *)
Theorem vector_round_trip_exact_numbers v xs ns :
  vector_items v = Some xs ->
  nums_of_scalars xs = Some ns ->
  coercion_exact ns = true ->
  round_trip_equal v xs.
Proof.
  intros Hitems Hns Hexact.
  destruct (nums_of_scalars_inv _ _ Hns) as [Hxs Hwf].
  assert (Hlen : List.length ns = List.length xs)
    by (now rewrite Hxs, length_map).
  exists (mk_ndarray [List.length ns] (pack ns)).
  split; [|split].
  - destruct v; simpl in Hitems; try discriminate.
    + apply (vector_round_trip_sequence _ l xs); auto.
    + apply (vector_round_trip_sequence _ l xs); auto.
    + destruct (shape a) as [|n [|]] eqn:Hshape; try discriminate.
      destruct (n =? _)%nat eqn:Hn; [|discriminate].
      apply Nat.eqb_eq in Hn. injection Hitems as <-.
      unfold vector_round_trip, VectorField_to_mongo, np_asarray.
      cbn [bind]. rewrite np_tolist_1d by (now rewrite Hshape, Hn).
      now apply VectorField_to_python_numbers.
  - cbn [shape]. now rewrite Hlen.
  - unfold array_items. cbn [data]. rewrite Hxs. now apply pack_keeps.
Qed.

(** ** Arrays through storage *)

(** X16: a non-empty 1-D array of dtype bool, int64 or float64 comes back
    from the round trip as the very same array, dtype included. *)
Theorem vector_round_trip_native a :
  native_vector a = true ->
  vector_round_trip (labels := labels) (VArray a) = Ok (VArray a).
Proof.
  destruct a as [sh buf]. unfold native_vector. cbn [shape data].
  destruct sh as [|n [|]]; try discriminate.
  destruct buf as [[|b bs] | [|z zs] | [|f fs] | xs]; try discriminate.
  - intros ->%Nat.eqb_eq.
    unfold vector_round_trip.
    rewrite VectorField_to_mongo_1d by (cbn; now rewrite length_map).
    cbn [bind]. unfold array_items. cbn [data buffer_items].
    rewrite (VectorField_to_python_numbers _ _ (nums_of_scalars_bools _)).
    rewrite length_map. unfold pack. cbn [map].
    change (NBool b :: map NBool bs) with (map NBool (b :: bs)).
    now rewrite as_bools_bools.
  - intros [->%Nat.eqb_eq Hin]%andb_prop.
    unfold vector_round_trip.
    rewrite VectorField_to_mongo_1d by (cbn; now rewrite length_map).
    cbn [bind]. unfold array_items. cbn [data buffer_items].
    rewrite (VectorField_to_python_numbers _ _ (nums_of_scalars_ints _ Hin)).
    rewrite length_map. unfold pack. cbn [map as_bools].
    change (NInt z :: map NInt zs) with (map NInt (z :: zs)).
    now rewrite as_ints_ints.
  - intros ->%Nat.eqb_eq.
    unfold vector_round_trip.
    rewrite VectorField_to_mongo_1d by (cbn; now rewrite length_map).
    cbn [bind]. unfold array_items. cbn [data buffer_items].
    rewrite (VectorField_to_python_numbers _ _ (nums_of_scalars_floats _)).
    rewrite length_map. unfold pack. cbn [map as_bools as_ints].
    change (NFloat f :: map NFloat fs) with (map NFloat (f :: fs)).
    rewrite map_map. cbn [float_of_num]. now rewrite map_id.
Qed.

(** X17: an empty 1-D array comes back as the empty float64 array,
    whatever its dtype was. *)
Theorem vector_round_trip_empty a :
  shape a = [0%nat] -> array_items a = [] ->
  vector_round_trip (labels := labels) (VArray a)
  = Ok (VArray (mk_ndarray [0%nat] (Float64Buf []))).
Proof.
  intros Hshape Hitems. unfold vector_round_trip.
  rewrite VectorField_to_mongo_1d by (now rewrite Hshape, Hitems).
  now rewrite Hitems.
Qed.

(** ** Image labels *)


End FurtherProperties.

(** * The further properties at concrete inputs *)

(** The text 'nan' passes bounds 0 and 1. *)
Lemma FloatField_validate_nan_witness :
  FloatField_validate (labels := toy_labels)
    (Some (NInt 0)) (Some (NInt 1)) (VStr "nan") = Ok tt.
Proof.
  apply (FloatField_validate_nan (labels := toy_labels)
           (Some (NInt 0)) (Some (NInt 1)) (VStr "nan") nan).
  - reflexivity.
  - vm_compute. reflexivity.
Defined.

(** The text 'abc' is reported as not convertible. *)
Lemma FloatField_validate_conversion_error_witness :
  FloatField_validate (labels := toy_labels) None None (VStr "abc")
  = Raise (ValidationError
             (Format "%s could not be converted to float" [PValue (VStr "abc")])).
Proof.
  apply (FloatField_validate_conversion_error (labels := toy_labels)
           None None (VStr "abc")
           (ValueError (Format "could not convert string to float: %r"
                          [PValue (VStr "abc")]))).
  - reflexivity.
  - discriminate.
Defined.

(** The pair [(1, 2)] raises a [TypeError]; the 1-tuple [(None,)] is
    reported with [None] in the message. *)
Lemma FloatField_validate_tuple_witness :
  FloatField_validate (labels := toy_labels) None None
    (VTuple [VInt 1; VInt 2]) = Raise TypeError
  /\ FloatField_validate (labels := toy_labels) None None (VTuple [VNone])
     = Raise (ValidationError
                (Format "%s could not be converted to float" [PValue VNone])).
Proof.
  split.
  - apply (proj1 (FloatField_validate_tuple (labels := toy_labels)
                    None None [VInt 1; VInt 2])).
    discriminate.
  - now apply (proj2 (FloatField_validate_tuple (labels := toy_labels)
                        None None [VNone]) VNone).
Defined.

(** The int 2^53 + 1 is checked as the float 2^53, so it passes a maximum
    of 2^53. *)
Lemma FloatField_validate_as_float_witness :
  FloatField_validate (labels := toy_labels)
    None (Some (NInt 9007199254740992)) (VInt 9007199254740993)
  = FloatField_validate (labels := toy_labels)
      None (Some (NInt 9007199254740992)) (VFloat 9007199254740992).
Proof.
  apply (FloatField_validate_as_float (labels := toy_labels)).
  vm_compute. reflexivity.
Defined.

(** With minimum 1 and maximum 0, NaN passes. *)
Lemma FloatField_validate_inverted_bounds_witness :
  exists f, py_float (labels := toy_labels) (VFloat nan) = Ok f
            /\ not_a_number f = true.
Proof.
  apply (FloatField_validate_inverted_bounds (labels := toy_labels)
           (NInt 1) (NInt 0) (VFloat nan)).
  - vm_compute. reflexivity.
  - vm_compute. reflexivity.
Defined.

(** Reading a list, a blob and a dictionary, then reading the results. *)
Lemma to_python_idempotent_witness :
  VectorField_to_python (labels := toy_labels)
    (VArray (mk_ndarray [2%nat] (Int64Buf [1; 2])))
  = Ok (VArray (mk_ndarray [2%nat] (Int64Buf [1; 2])))
  /\ ArrayField_to_python (labels := toy_labels)
       (VArray (mk_ndarray [1%nat] (BoolBuf [true])))
     = Ok (VArray (mk_ndarray [1%nat] (BoolBuf [true])))
  /\ ImageLabelsField_to_python (labels := toy_labels)
       (VImageLabels "frame.jpg")
     = Ok (VImageLabels "frame.jpg").
Proof.
  refine (conj _ (conj _ _)).
  - apply (proj1 (to_python_idempotent (labels := toy_labels)
                    (VList [VInt 1; VInt 2])
                    (VArray (mk_ndarray [2%nat] (Int64Buf [1; 2]))))).
    reflexivity.
  - apply (proj1 (proj2 (to_python_idempotent (codec := toy_codec)
                           (VBinary [x01])
                           (VArray (mk_ndarray [1%nat] (BoolBuf [true])))))).
    reflexivity.
  - apply (proj2 (proj2 (to_python_idempotent (eta := toy_eta)
                           (VDict [(VStr "filename", VStr "frame.jpg")])
                           (VImageLabels "frame.jpg")))).
    reflexivity.
Defined.

(** The blob of a bool array and the dictionary of an annotation pass. *)
Lemma stored_form_validates_witness :
  ((exists bs, VBinary [x01; x00] = VBinary (labels := toy_labels) bs)
   /\ ArrayField_validate (labels := toy_labels) (VBinary [x01; x00]) = Ok tt)
  /\ ((exists d, VDict [(VStr "filename", VStr "frame.jpg")]
                 = VDict (labels := toy_labels) d)
      /\ ImageLabelsField_validate (labels := toy_labels)
           (VDict [(VStr "filename", VStr "frame.jpg")]) = Ok tt).
Proof.
  split.
  - apply (proj1 (stored_form_validates (codec := toy_codec)
                    (VArray (mk_ndarray [2%nat] (BoolBuf [true; false])))
                    (VBinary [x01; x00]) ltac:(discriminate))).
    reflexivity.
  - apply (proj2 (stored_form_validates (eta := toy_eta)
                    (VImageLabels "frame.jpg")
                    (VDict [(VStr "filename", VStr "frame.jpg")])
                    ltac:(discriminate))).
    reflexivity.
Defined.

(** A 2x2 array: refused by [validate], stored as two rows. *)
Lemma VectorField_to_mongo_any_rank_witness :
  (exists l, VectorField_to_mongo (labels := toy_labels)
               (VArray (mk_ndarray [2%nat; 2%nat] (Int64Buf [1; 2; 3; 4])))
             = Ok (VList l)
             /\ List.length l = 2%nat
             /\ VectorField_validate (labels := toy_labels) (VList l) = Ok tt)
  /\ rejected (VectorField_validate (labels := toy_labels)
                 (VArray (mk_ndarray [2%nat; 2%nat] (Int64Buf [1; 2; 3; 4]))))
       "Only 1D arrays may be used in a vector field".
Proof.
  split.
  - now apply (proj1 (VectorField_to_mongo_any_rank (labels := toy_labels)
                        (mk_ndarray [2%nat; 2%nat] (Int64Buf [1; 2; 3; 4]))
                        2%nat [2%nat] eq_refl)).
  - apply (proj2 (VectorField_to_mongo_any_rank (labels := toy_labels)
                    (mk_ndarray [2%nat; 2%nat] (Int64Buf [1; 2; 3; 4]))
                    2%nat [2%nat] eq_refl)).
    discriminate.
Defined.

(** The 0-d array [np.asarray(1.5)] is stored as the float 1.5. *)
Lemma VectorField_rank0_stored_bare_witness :
  VectorField_validate (labels := toy_labels)
    (VArray (mk_ndarray [] (Float64Buf [1.5%float]))) = Ok tt
  /\ VectorField_to_mongo (labels := toy_labels)
       (VArray (mk_ndarray [] (Float64Buf [1.5%float]))) = Ok (VFloat 1.5)
  /\ rejected (VectorField_validate (labels := toy_labels) (VFloat 1.5))
       "Only numpy arrays, lists, and tuples may be used in a vector field".
Proof.
  apply (VectorField_rank0_stored_bare (labels := toy_labels)
           (mk_ndarray [] (Float64Buf [1.5%float])) (SFloat 1.5));
    reflexivity.
Defined.

(** An object array of [None] and a string is stored as their list. *)
Lemma VectorField_to_mongo_vector_witness :
  exists l, VectorField_to_mongo (labels := toy_labels)
              (VArray (mk_ndarray [2%nat] (ObjectBuf [SNone; SStr "a"])))
            = Ok (VList l)
            /\ l = [VNone; VStr "a"]
            /\ List.length l = 2%nat.
Proof.
  apply (VectorField_to_mongo_vector (labels := toy_labels)
           (mk_ndarray [2%nat] (ObjectBuf [SNone; SStr "a"]))).
  reflexivity.
Defined.

(** The tuple [(True, 2, 3.5)] is stored as three floats. *)
Lemma VectorField_to_mongo_homogeneous_witness :
  exists l', VectorField_to_mongo (labels := toy_labels)
               (VTuple [VBool true; VInt 2; VFloat 3.5]) = Ok (VList l')
             /\ List.length l' = 3%nat
             /\ homogeneous l' = true.
Proof.
  apply (VectorField_to_mongo_homogeneous (labels := toy_labels)
           (VTuple [VBool true; VInt 2; VFloat 3.5])
           [VBool true; VInt 2; VFloat 3.5]
           [NBool true; NInt 2; NFloat 3.5]).
  - now right.
  - reflexivity.
Defined.

(** Storing the stored form of [(True, 2, 3.5)] changes nothing. *)
Lemma VectorField_to_mongo_idempotent_witness :
  VectorField_to_mongo (labels := toy_labels)
    (VList [VFloat 1; VFloat 2; VFloat 3.5])
  = Ok (VList [VFloat 1; VFloat 2; VFloat 3.5]).
Proof.
  apply (VectorField_to_mongo_idempotent (labels := toy_labels)
           (VTuple [VBool true; VInt 2; VFloat 3.5])
           [VBool true; VInt 2; VFloat 3.5]
           [NBool true; NInt 2; NFloat 3.5]).
  - now right.
  - reflexivity.
  - vm_compute. reflexivity.
Defined.

(** For [[1, 2.5]] the round trip and the direct read agree. *)
Lemma vector_round_trip_is_to_python_witness :
  vector_round_trip (labels := toy_labels) (VList [VInt 1; VFloat 2.5])
  = VectorField_to_python (VList [VInt 1; VFloat 2.5])
  /\ exists a, VectorField_to_python (labels := toy_labels)
                 (VList [VInt 1; VFloat 2.5]) = Ok (VArray a)
               /\ shape a = [2%nat].
Proof.
  apply (vector_round_trip_is_to_python (labels := toy_labels)
           (VList [VInt 1; VFloat 2.5]) [VInt 1; VFloat 2.5]
           [NInt 1; NFloat 2.5]).
  - now left.
  - reflexivity.
Defined.

(** The int64 array [[1, 2, 3]] comes back as it is. *)
Lemma vector_round_trip_native_witness :
  vector_round_trip (labels := toy_labels)
    (VArray (mk_ndarray [3%nat] (Int64Buf [1; 2; 3])))
  = Ok (VArray (mk_ndarray [3%nat] (Int64Buf [1; 2; 3]))).
Proof.
  apply (vector_round_trip_native (labels := toy_labels)
           (mk_ndarray [3%nat] (Int64Buf [1; 2; 3]))).
  reflexivity.
Defined.

(** The empty int64 array comes back as an empty float64 array. *)
Lemma vector_round_trip_empty_witness :
  vector_round_trip (labels := toy_labels)
    (VArray (mk_ndarray [0%nat] (Int64Buf [])))
  = Ok (VArray (mk_ndarray [0%nat] (Float64Buf []))).
Proof.
  apply (vector_round_trip_empty (labels := toy_labels)
           (mk_ndarray [0%nat] (Int64Buf []))); reflexivity.
Defined.

(** The list [[True, 2, 3.5]] has no NaN and only ints that are exact as
    floats. *)
Lemma vector_round_trip_exact_numbers_witness :
  round_trip_equal (labels := toy_labels)
    (VList [VBool true; VInt 2; VFloat 3.5])
    [SBool true; SInt 2; SFloat 3.5].
Proof.
  apply (vector_round_trip_exact_numbers (labels := toy_labels) _ _
           [NBool true; NInt 2; NFloat 3.5]).
  - reflexivity.
  - reflexivity.
  - vm_compute. reflexivity.
Defined.
